(** * copulae: the base copula contract

    A shallow embedding of [copulae/copula/base.py] (class [BaseCopula]):
    the fit orchestration, the fit-state guard of [random], the derived
    operations [log_lik] and [concentration_*], the dependence-measure
    stubs and the tail-dependence property.

    Numbers are IEEE 754 binary64 values, as Python's [float] and numpy's
    [float64] are; method bodies run in a small state-and-exception monad
    over the copula instance, the outside world and a log of the calls
    that the base class makes to family code and to its collaborators. *)

From Stdlib Require Import ZArith List String Bool Lia.
From Stdlib Require Import Floats.SpecFloat Floats.PrimFloat Floats.FloatOps.
Import ListNotations.

Local Open Scope Z_scope.
Local Open Scope string_scope.

(* ================================================================== *)
(** ** Binary64 arithmetic *)
(* ================================================================== *)

Module F64.

(** A Python [float]: sign, mantissa and exponent, or a zero, an
    infinity or NaN. *)
Definition float64 : Type := spec_float.

Definition add : float64 -> float64 -> float64 := SFadd prec emax.
Definition sub : float64 -> float64 -> float64 := SFsub prec emax.
Definition mul : float64 -> float64 -> float64 := SFmul prec emax.
Definition div : float64 -> float64 -> float64 := SFdiv prec emax.

(** [x < y] and [x <= y]; Python's [x > y] is [ltb y x]. *)
Definition ltb : float64 -> float64 -> bool := SFltb.
Definition leb : float64 -> float64 -> bool := SFleb.

(** The literals of [base.py], and two more for the examples. *)
Definition zero : float64 := Eval vm_compute in Prim2SF 0%float.
Definition half : float64 := Eval vm_compute in Prim2SF 0.5%float.
Definition one : float64 := Eval vm_compute in Prim2SF 1%float.
Definition two : float64 := Eval vm_compute in Prim2SF 2%float.
Definition f0_3 : float64 :=
  Eval vm_compute in Prim2SF 0x1.3333333333333p-2%float.
Definition f0_6 : float64 :=
  Eval vm_compute in Prim2SF 0x1.3333333333333p-1%float.
Definition nan : float64 := S754_nan.
Definition neg_zero : float64 := Eval vm_compute in Prim2SF (-0)%float.

Definition is_nan (x : float64) : bool :=
  match x with S754_nan => true | _ => false end.

Definition is_finite (x : float64) : bool :=
  match x with S754_zero _ | S754_finite _ _ _ => true | _ => false end.

(** Membership in a closed interval, and lying strictly beyond one of
    its ends, both by the comparisons of the floats themselves. NaN is
    in neither. *)
Definition within (lo hi x : float64) : Prop :=
  leb lo x = true /\ leb x hi = true.
Definition beyond (lo hi x : float64) : Prop :=
  ltb x lo = true \/ ltb hi x = true.

End F64.
Import F64.

Declare Scope f64_scope.
Delimit Scope f64_scope with f64.
Infix "+" := F64.add : f64_scope.
Infix "-" := F64.sub : f64_scope.
Infix "*" := F64.mul : f64_scope.
Infix "/" := F64.div : f64_scope.
Infix "<?" := F64.ltb : f64_scope.
Infix "<=?" := F64.leb : f64_scope.

(* ================================================================== *)
(** ** numpy arrays *)
(* ================================================================== *)

Module Np.

(** An [ndarray] of [float64]: its shape and its elements in row-major
    order. A Python list of floats such as [[x, x]] is the array of
    shape [(2,)]. *)
Record ndarray : Type := mk_ndarray {
  shape : list nat;
  flat : list float64
}.

Definition vector (l : list float64) : ndarray :=
  {| shape := [List.length l]; flat := l |}.

Definition map_elems (f : float64 -> float64) (a : ndarray) : ndarray :=
  {| shape := shape a; flat := map f (flat a) |}.

(** Broadcasting of a Python scalar against an array:
    [s + a] and [a / s]. *)
Definition scalar_add (s : float64) (a : ndarray) : ndarray :=
  map_elems (fun v => (s + v)%f64) a.
Definition div_scalar (a : ndarray) (s : float64) : ndarray :=
  map_elems (fun v => (v / s)%f64) a.

(** [a.sum()] on a contiguous [float64] array is numpy's pairwise
    summation (DOUBLE_pairwise_sum in numpy's loops_utils.h.src), which
    these definitions follow branch by branch.

    Fewer than eight elements are added one after the other, starting
    from -0.0. *)
Definition sum_few (l : list float64) : float64 :=
  fold_left F64.add l neg_zero.

(** [r[j] += a[i + j]] for the eight running sums [r]. *)
Fixpoint add_lanes (r l : list float64) : list float64 :=
  match r, l with
  | x :: r', y :: l' => (x + y)%f64 :: add_lanes r' l'
  | _, _ => r
  end.

(** [for (i = 8; i < n - (n % 8); i += 8)]: one round for every further
    full group of eight; what is left over is returned with the sums. *)
Fixpoint lanes_loop (rounds : nat) (r l : list float64)
  : list float64 * list float64 :=
  match rounds with
  | O => (r, l)
  | S rounds' => lanes_loop rounds' (add_lanes r (firstn 8 l)) (skipn 8 l)
  end.

(** [((r[0] + r[1]) + (r[2] + r[3])) + ((r[4] + r[5]) + (r[6] + r[7]))] *)
Definition join_lanes (r : list float64) : float64 :=
  match r with
  | [r0; r1; r2; r3; r4; r5; r6; r7] =>
      (((r0 + r1) + (r2 + r3)) + ((r4 + r5) + (r6 + r7)))%f64
  | _ => nan
  end.

(** From 8 to 128 elements: eight running sums over the full groups of
    eight, joined as a tree, and then the leftover elements added one
    after the other. *)
Definition sum_block (l : list float64) : float64 :=
  let '(r, rest) :=
    lanes_loop (List.length l / 8 - 1) (firstn 8 l) (skipn 8 l) in
  fold_left F64.add rest (join_lanes r).

(** More than 128 elements: the array is cut at [n2 = n / 2] lowered to
    a multiple of eight, and the sums of the two parts are added. The
    recursion is counted down by [fuel]; [None] is for running out. *)
Fixpoint pairwise_sum (fuel : nat) (l : list float64) : option float64 :=
  let n := List.length l in
  if (n <? 8)%nat then Some (sum_few l)
  else if (n <=? 128)%nat then Some (sum_block l)
  else
    match fuel with
    | O => None
    | S fuel' =>
        let n2 := (n / 2 - (n / 2) mod 8)%nat in
        match pairwise_sum fuel' (firstn n2 l),
              pairwise_sum fuel' (skipn n2 l) with
        | Some p, Some q => Some (p + q)%f64
        | _, _ => None
        end
    end.

(** [a.sum()]: the sum of no elements is 0.0; otherwise the reduction
    starts from -0.0 and adds the pairwise sum of all the elements to
    it. (Before numpy 1.25 both starting values were 0.0, which makes a
    difference only when every element is -0.0.) *)
Definition ndarray_sum (a : ndarray) : float64 :=
  match flat a with
  | [] => zero
  | _ :: _ =>
      match pairwise_sum (List.length (flat a)) (flat a) with
      | Some p => (neg_zero + p)%f64
      | None => nan
      end
  end.

End Np.
Import Np.

(* ================================================================== *)
(** ** Exceptions, instances and the method monad *)
(* ================================================================== *)

(** The exceptions that [base.py] raises, plus the one the estimator
    raises when a fit fails and a slot for anything family code raises.
    The specification calls [ValueError] a DomainError, [RuntimeError] a
    PreconditionError and [NotImplementedError] NotImplemented. *)
Inductive exn : Type :=
| ValueError (msg : string)
| RuntimeError (msg : string)
| NotImplementedError
| TypeError
| EstimationError
| OtherError (what : string).

(** Modelled from the spec: the record stored in [fit_stats] by a
    successful fit (section 3: estimated parameters, standard errors if
    requested, log-likelihood, diagnostics). Its class is not among the
    sources. *)
Record FitStats : Type := mk_FitStats {
  est_params : list float64;
  std_errors : option (list float64);
  log_likelihood : float64;
  diagnostics : string
}.

(** Modelled from the spec: the attributes of a copula instance, which
    [AbstractCopula.__init__] (not among the sources) sets up: [dim],
    [name], the parameter vector behind the [params] property, and
    [fit_stats], which is [None] until a fit has succeeded. *)
Record Copula : Type := mk_Copula {
  dim : Z;
  name : string;
  params : list float64;
  fit_stats : option FitStats
}.

(** An [optim_options] dict, passed through untouched. *)
Definition options : Type := list (string * string).

(** The calls that [BaseCopula] makes to code it does not define itself:
    methods a family supplies and the two collaborators of [fit]. *)
Inductive call : Type :=
| call_cdf (x : ndarray) (log : bool)
| call_pdf (x : ndarray) (log : bool)
| call_lambda
| call_random (n : Z) (seed : option Z)
| call_tau | call_rho | call_dtau | call_drho
| call_itau (tau : ndarray)
| call_irho (rho : ndarray)
| call_pseudo_obs (data : ndarray) (ties : string)
| call_estimator (data : ndarray) (x0 : option ndarray) (method : string)
    (est_var : bool) (verbose : Z) (optim_options : option options).

(** The two-field named tuple that [lambda_] is written to build;
    [ident] is the identity of the tuple object. *)
Record Lambda : Type := mk_Lambda {
  ident : nat;
  lower : ndarray;
  upper : ndarray
}.

(* ================================================================== *)
(** ** [collections.namedtuple] *)
(* ================================================================== *)

Module Py.

(** [keyword.kwlist] *)
Definition kwlist : list string :=
  ["False"; "None"; "True"; "and"; "as"; "assert"; "async"; "await";
   "break"; "class"; "continue"; "def"; "del"; "elif"; "else"; "except";
   "finally"; "for"; "from"; "global"; "if"; "import"; "in"; "is";
   "lambda"; "nonlocal"; "not"; "or"; "pass"; "raise"; "return"; "try";
   "while"; "with"; "yield"].

Definition iskeyword (name : string) : bool :=
  existsb (String.eqb name) kwlist.

Definition is_letter (c : Ascii.ascii) : bool :=
  let n := Ascii.nat_of_ascii c in
  ((65 <=? n) && (n <=? 90) || (97 <=? n) && (n <=? 122) || (n =? 95))%nat.

Definition is_digit (c : Ascii.ascii) : bool :=
  let n := Ascii.nat_of_ascii c in ((48 <=? n) && (n <=? 57))%nat.

(** [str.isidentifier], for names written in ASCII: a letter or an
    underscore, then letters, digits and underscores. *)
Definition isidentifier (name : string) : bool :=
  match name with
  | EmptyString => false
  | String c rest =>
      is_letter c &&
      forallb (fun d => is_letter d || is_digit d) (list_ascii_of_string rest)
  end.

(** [repr] of a name without quotes in it. *)
Definition repr (name : string) : string := "'" ++ name ++ "'".

(** The first loop of [namedtuple]: the type name and then every field
    name must be an identifier and must not be a keyword. *)
Fixpoint check_names (names : list string) : option exn :=
  match names with
  | [] => None
  | name :: rest =>
      if negb (isidentifier name) then
        Some (ValueError
          ("Type names and field names must be valid identifiers: "
           ++ repr name))
      else if iskeyword name then
        Some (ValueError
          ("Type names and field names cannot be a keyword: " ++ repr name))
      else check_names rest
  end.

(** The second loop: no field name starts with an underscore and none
    comes twice. *)
Fixpoint check_fields (seen fields : list string) : option exn :=
  match fields with
  | [] => None
  | name :: rest =>
      if String.prefix "_" name then
        Some (ValueError
          ("Field names cannot start with an underscore: " ++ repr name))
      else if existsb (String.eqb name) seen then
        Some (ValueError
          ("Encountered duplicate field name: " ++ repr name))
      else check_fields (name :: seen) rest
  end.

(** What [namedtuple(typename, field_names)] raises, if anything, for a
    list of field names, [rename] unset and no defaults. *)
Definition namedtuple_check (typename : string) (field_names : list string)
  : option exn :=
  match check_names (typename :: field_names) with
  | Some e => Some e
  | None => check_fields [] field_names
  end.

End Py.

Section Contract.

(** Whatever lies outside the instance: the random generator, the
    display. *)
Context {Env : Type}.

(** The body of a method of the instance: it reads and may update [self]
    and the outside world, and returns or raises. *)
Definition pymethod (A : Type) : Type :=
  Copula -> Env -> (exn + A) * Copula * Env.

Definition not_implemented {A : Type} : pymethod A :=
  fun c e => (inl NotImplementedError, c, e).

(** What a concrete family puts on top of [BaseCopula]. The abstract
    methods [__lambda__], [__random__] and [summary] are always there;
    for the others [None] means the family inherits the body of
    [BaseCopula], which raises [NotImplementedError]. *)
Record Family : Type := mk_Family {
  cdf_impl : option (ndarray -> bool -> pymethod ndarray);
  pdf_impl : option (ndarray -> bool -> pymethod ndarray);
  tau_impl : option (pymethod ndarray);
  rho_impl : option (pymethod ndarray);
  itau_impl : option (ndarray -> pymethod ndarray);
  irho_impl : option (ndarray -> pymethod ndarray);
  dtau_impl : option (pymethod ndarray);
  drho_impl : option (pymethod ndarray);
  lambda_impl : pymethod (list ndarray);
  random_impl : Z -> option Z -> pymethod ndarray;
  summary_impl : pymethod unit
}.

(** The collaborators that [base.py] imports: [pseudo_obs]
    (copulae.math_tools.misc), a pure function of the data and the ties
    policy, and [CopulaEstimator] (copulae.estimators), which is handed
    the instance and works on it. *)
Record Collaborators : Type := mk_Collaborators {
  pseudo_obs : ndarray -> string -> exn + ndarray;
  CopulaEstimator : ndarray -> option ndarray -> string -> bool -> Z ->
                    option options -> pymethod unit
}.

(** The state a call runs in: the instance, the outside world, the calls
    made so far and the number of objects allocated so far. *)
Record World : Type := mk_World {
  self : Copula;
  env : Env;
  calls : list call;
  allocated : nat
}.

Definition M (A : Type) : Type := World -> (exn + A) * World.

Definition ret {A : Type} (a : A) : M A := fun w => (inr a, w).

Definition raise {A : Type} (e : exn) : M A := fun w => (inl e, w).

Definition bind {A B : Type} (m : M A) (k : A -> M B) : M B :=
  fun w =>
    match m w with
    | (inr a, w') => k a w'
    | (inl e, w') => (inl e, w')
    end.

(** Run a method body on [self], recording the call. *)
Definition invoke {A : Type} (c : call) (body : pymethod A) : M A :=
  fun w =>
    let '(r, s, e) := body (self w) (env w) in
    (r, {| self := s; env := e; calls := calls w ++ [c];
           allocated := allocated w |}).

(** Read an attribute of [self]. *)
Definition attr {A : Type} (f : Copula -> A) : M A :=
  fun w => (inr (f (self w)), w).

(** Create an object; its identity is the allocation count. *)
Definition new_object : M nat :=
  fun w => (inr (allocated w),
            {| self := self w; env := env w; calls := calls w;
               allocated := S (allocated w) |}).

(** [namedtuple(typename, field_names)]: the names are checked, and
    only then a class is created. *)
Definition namedtuple (typename : string) (field_names : list string)
  : M nat :=
  match Py.namedtuple_check typename field_names with
  | Some e => raise e
  | None => new_object
  end.

(** Method resolution: the family's body, or the one of [BaseCopula]. *)
Definition resolve {A : Type} (slot : option (pymethod A)) : pymethod A :=
  match slot with
  | Some body => body
  | None => not_implemented
  end.

Definition resolve1 {A B : Type} (slot : option (B -> pymethod A)) (b : B)
  : pymethod A :=
  match slot with
  | Some body => body b
  | None => not_implemented
  end.

Definition resolve2 {A B C : Type} (slot : option (B -> C -> pymethod A))
  (b : B) (c : C) : pymethod A :=
  match slot with
  | Some body => body b c
  | None => not_implemented
  end.

End Contract.

Arguments pymethod : clear implicits.
Arguments Family : clear implicits.
Arguments Collaborators : clear implicits.
Arguments World : clear implicits.
Arguments M : clear implicits.

Declare Scope py_scope.
Delimit Scope py_scope with py.
Notation "x <- m ;; k" := (bind m (fun x => k))
  (at level 61, m at next level, right associativity) : py_scope.

(* ================================================================== *)
(** ** class BaseCopula *)
(* ================================================================== *)

Module BaseCopula.
Section Methods.

Context {Env : Type}.
Variable F : Family Env.
Variable K : Collaborators Env.

Local Open Scope py_scope.
Local Open Scope f64_scope.

(** [pobs(data, ties='average')], a static method:
    [return pseudo_obs(data, ties)]. *)
Definition pobs (data : ndarray) (ties : string) : M Env ndarray :=
  invoke (call_pseudo_obs data ties)
         (fun c e => (pseudo_obs K data ties, c, e)).

(** [fit]: [data = self.pobs(data)], then the estimator is constructed
    on [self] and the new data with the keyword arguments handed on; the
    estimator object is dropped and nothing is returned. *)
Definition fit (data : ndarray) (x0 : option ndarray) (method : string)
  (est_var : bool) (verbose : Z) (optim_options : option options)
  : M Env unit :=
  data' <- pobs data "average" ;;
  invoke (call_estimator data' x0 method est_var verbose optim_options)
         (CopulaEstimator K data' x0 method est_var verbose optim_options).

(** The properties [tau] and [rho]. *)
Definition tau : M Env ndarray := invoke call_tau (resolve (tau_impl F)).
Definition rho : M Env ndarray := invoke call_rho (resolve (rho_impl F)).

(** The property [lambda_]:
    [Lambda = namedtuple('lambda', ['lower', 'upper'])], and then
    [Lambda] called on the unpacked [self.__lambda__] is returned.
    The class is made first; then [__lambda__] is read and unpacked into
    the two fields of a new tuple, anything but two items being a
    [TypeError]. *)
Definition lambda_ : M Env Lambda :=
  _ <- namedtuple "lambda" ["lower"; "upper"] ;;
  t <- invoke call_lambda (lambda_impl F) ;;
  match t with
  | [lo; up] =>
      i <- new_object ;;
      ret {| ident := i; lower := lo; upper := up |}
  | _ => raise TypeError
  end.

Definition itau (tau : ndarray) : M Env ndarray :=
  invoke (call_itau tau) (resolve1 (itau_impl F) tau).
Definition irho (rho : ndarray) : M Env ndarray :=
  invoke (call_irho rho) (resolve1 (irho_impl F) rho).

(** [dtau] and [drho] are declared as properties, so an access runs the
    getter with its [x] left at the default. *)
Definition dtau : M Env ndarray := invoke call_dtau (resolve (dtau_impl F)).
Definition drho : M Env ndarray := invoke call_drho (resolve (drho_impl F)).

Definition cdf (x : ndarray) (log : bool) : M Env ndarray :=
  invoke (call_cdf x log) (resolve2 (cdf_impl F) x log).
Definition pdf (x : ndarray) (log : bool) : M Env ndarray :=
  invoke (call_pdf x log) (resolve2 (pdf_impl F) x log).

(** [return self.pdf(data, log=True).sum()] *)
Definition log_lik (data : ndarray) : M Env float64 :=
  a <- pdf data true ;;
  ret (ndarray_sum a).

Definition down_msg : string :=
  "The argument must be included between 0 and 0.5.".
Definition up_msg : string :=
  "The argument must be included between 0.5 and 1.".
Definition range_msg : string :=
  "The argument must be included between 0 and 1.".
Definition unfitted_msg : string :=
  "Copula must be fitted before it can generate random numbers".

(** [if x > 0.5 or x < 0: raise ValueError(...)]
    [return self.cdf([x, x]) / x] *)
Definition concentration_down (x : float64) : M Env ndarray :=
  if (half <? x) || (x <? zero) then raise (ValueError down_msg)
  else
    v <- cdf (vector [x; x]) false ;;
    ret (div_scalar v x).

(** [if x < 0.5 or x > 1: raise ValueError(...)]
    [return (1. - 2 * x + self.cdf([x, x])) / (1. - x)] *)
Definition concentration_up (x : float64) : M Env ndarray :=
  if (x <? half) || (one <? x) then raise (ValueError up_msg)
  else
    v <- cdf (vector [x; x]) false ;;
    ret (div_scalar (scalar_add (one - two * x) v) (one - x)).

(** [if x < 0 or x > 1: raise ValueError(...)]
    [if x < 0.5: return self.concentration_down(x)]
    [return self.concentration_up(x)] *)
Definition concentration_function (x : float64) : M Env ndarray :=
  if (x <? zero) || (one <? x) then raise (ValueError range_msg)
  else if x <? half then concentration_down x
  else concentration_up x.

(** [if self.fit_stats is None: raise RuntimeError(...)]
    [return self.__random__(n, seed)] *)
Definition random (n : Z) (seed : option Z) : M Env ndarray :=
  fs <- attr fit_stats ;;
  match fs with
  | None => raise (RuntimeError unfitted_msg)
  | Some _ => invoke (call_random n seed) (random_impl F n seed)
  end.

End Methods.
End BaseCopula.

(* ================================================================== *)
(** ** The estimator, from its contract *)
(* ================================================================== *)

(** What the optimizer hands back when it has converged. *)
Record Optimum : Type := mk_Optimum {
  best_params : list float64;
  achieved_log_lik : float64;
  hessian_std_errors : option (list float64);
  report : string
}.

Section Estimator.

Context {Env : Type}.

(** The optimizer loop behind the estimator: from the instance, the
    pseudo-observations and the configuration to an optimum, or to
    nothing when it does not converge. It may write to the display. *)
Variable minimize :
  Copula -> ndarray -> option ndarray -> string -> Z -> option options ->
  Env -> option Optimum * Env.

(** Modelled from the spec: the estimator collaborator
    [copulae.estimators.CopulaEstimator], which is not among the
    sources. Sections 4.3 and 6: it drives the optimizer; when that does
    not converge it fails with EstimationError and the instance's
    [params] and [fit_stats] remain as they were; otherwise it sets
    [params] to the optimized values and populates [fit_stats] with the
    final parameter vector and the achieved log-likelihood, and with
    standard errors only when [est_var] is set. *)
Definition SpecEstimator (data : ndarray) (x0 : option ndarray)
  (method : string) (est_var : bool) (verbose : Z)
  (optim_options : option options) : pymethod Env unit :=
  fun c e =>
    match minimize c data x0 method verbose optim_options e with
    | (None, e') => (inl EstimationError, c, e')
    | (Some o, e') =>
        (inr tt,
         {| dim := dim c; name := name c;
            params := best_params o;
            fit_stats :=
              Some {| est_params := best_params o;
                      std_errors :=
                        if est_var then hessian_std_errors o else None;
                      log_likelihood := achieved_log_lik o;
                      diagnostics := report o |} |},
         e')
    end.

(** The collaborators of [fit] with that estimator in place. *)
Definition with_SpecEstimator (po : ndarray -> string -> exn + ndarray)
  : Collaborators Env :=
  {| pseudo_obs := po; CopulaEstimator := SpecEstimator |}.

End Estimator.

(* ================================================================== *)
(** ** A concrete family and concrete collaborators *)
(* ================================================================== *)

Module Sample.

Local Open Scope f64_scope.

Definition of_Z (z : Z) : float64 := binary_normalize prec emax z 0 false.

Definition count (p : float64 -> bool) (l : list float64) : Z :=
  Z.of_nat (List.length (filter p l)).

(** The average rank of [v] among [col]: the mean of the positions that
    the values equal to [v] occupy once [col] is sorted. *)
Definition average_rank (col : list float64) (v : float64) : float64 :=
  of_Z (count (fun u => u <? v) col + count (fun u => u <=? v) col + 1)
  / two.

(** Column [j] of a row-major matrix with [n] rows and [d] columns. *)
Definition column (n d j : nat) (l : list float64) : list float64 :=
  map (fun i => nth (i * d + j) l nan) (seq 0 n).

(** Modelled from the spec: the Pseudo-Observation Transform
    [copulae.math_tools.misc.pseudo_obs], which is not among the
    sources, for the ties policy 'average' (section 4.2: every column is
    rank-transformed on its own and the ranks are divided by n + 1). *)
Definition pseudo_obs_average (data : ndarray) (ties : string)
  : exn + ndarray :=
  if negb (String.eqb ties "average") then inl (OtherError "ties")
  else
    match shape data with
    | [n; S d'] =>
        let d := S d' in
        let l := flat data in
        inr {| shape := [n; d];
               flat :=
                 map (fun k =>
                        average_rank (column n d (k mod d) l) (nth k l nan)
                        / of_Z (Z.of_nat n + 1))
                     (seq 0 (n * d)) |}
    | _ => inl (OtherError "shape")
    end.

(** A one-step optimizer: it settles on the initial guess when one is
    given and reports that it did not converge otherwise. *)
Definition one_step_minimize (c : Copula) (data : ndarray)
  (x0 : option ndarray) (method : string) (verbose : Z)
  (optim_options : option options) (e : unit) : option Optimum * unit :=
  match x0 with
  | Some guess =>
      (Some {| best_params := flat guess;
               achieved_log_lik := zero;
               hessian_std_errors := None;
               report := "converged" |}, e)
  | None => (None, e)
  end.

Definition collaborators : Collaborators unit :=
  with_SpecEstimator one_step_minimize pseudo_obs_average.

Definition product (l : list float64) : float64 := fold_left mul l one.

Definition rows (x : ndarray) : nat := hd 1%nat (shape x).

(** The independence copula: C(u) is the product of the coordinates of
    [u], so C(x, x) = x * x; its density is 1, with logarithm 0; both
    tail-dependence coefficients are 0. Its sampler here returns the
    centre of the unit cube [n] times, and [cdf] does not do [log]. *)
Definition independence : Family unit :=
  {| cdf_impl := Some (fun x (log : bool) c e =>
       if log then (inl (OtherError "log"), c, e)
       else (inr {| shape := []; flat := [product (flat x)] |}, c, e));
     pdf_impl := Some (fun x (log : bool) c e =>
       (inr (vector (repeat (if log then zero else one) (rows x))), c, e));
     tau_impl := None;
     rho_impl := None;
     itau_impl := None;
     irho_impl := None;
     dtau_impl := None;
     drho_impl := None;
     lambda_impl := fun c e => (inr [vector [zero]; vector [zero]], c, e);
     random_impl := fun n seed c e =>
       (inr {| shape := [Z.to_nat n; Z.to_nat (dim c)];
               flat := repeat half (Z.to_nat n * Z.to_nat (dim c)) |},
        c, e);
     summary_impl := fun c e => (inr tt, c, e) |}.

Definition unfitted : Copula :=
  {| dim := 2; name := "independence"; params := []; fit_stats := None |}.

Definition fitted : Copula :=
  {| dim := 2; name := "independence"; params := [];
     fit_stats := Some {| est_params := []; std_errors := None;
                          log_likelihood := zero;
                          diagnostics := "converged" |} |}.

Definition world (c : Copula) : World unit :=
  {| self := c; env := tt; calls := []; allocated := 0 |}.

(** The data of the scenario in section 8 of the specification:
    [[0.1, 0.9], [0.5, 0.5], [0.9, 0.1]], and the quarters. *)
Definition scenario_values : list float64 :=
  Eval vm_compute in
    map Prim2SF [0x1.999999999999ap-4%float; 0x1.ccccccccccccdp-1%float;
                 0.5%float; 0.5%float;
                 0x1.ccccccccccccdp-1%float; 0x1.999999999999ap-4%float].

Definition scenario : ndarray :=
  {| shape := [3%nat; 2%nat]; flat := scenario_values |}.

Definition quarter : float64 := Eval vm_compute in Prim2SF 0.25%float.
Definition three_quarters : float64 :=
  Eval vm_compute in Prim2SF 0.75%float.



(** A family that supplies the abstract methods only and inherits all
    the rest from [BaseCopula]. *)
Definition bare : Family unit :=
  {| cdf_impl := None; pdf_impl := None; tau_impl := None;
     rho_impl := None; itau_impl := None; irho_impl := None;
     dtau_impl := None; drho_impl := None;
     lambda_impl := lambda_impl independence;
     random_impl := random_impl independence;
     summary_impl := summary_impl independence |}.

End Sample.

(* ================================================================== *)
(** ** Facts about the comparisons *)
(* ================================================================== *)

Import BaseCopula.

Local Open Scope list_scope.

(** Split a conjunction into its parts, leaving equivalences whole. *)
Ltac split_all := repeat match goal with |- _ /\ _ => split end.

Lemma compare_cont_swap (p q : positive) :
  Pos.compare_cont Eq q p = CompOpp (Pos.compare_cont Eq p q).
Proof. exact (Pos.compare_antisym p q). Qed.

Lemma SFcompare_swap (x y : float64) :
  SFcompare y x = option_map CompOpp (SFcompare x y).
Proof.
  destruct x as [sx|sx| |sx mx ex], y as [sy|sy| |sy my ey];
    try destruct sx; try destruct sy; try reflexivity.
  - cbn. rewrite (Z.compare_antisym ex ey), (compare_cont_swap mx my).
    destruct (ex ?= ey)%Z; cbn; reflexivity.
  - cbn. rewrite (Z.compare_antisym ex ey), (compare_cont_swap mx my).
    destruct (ex ?= ey)%Z; reflexivity.
Qed.

Lemma SFcompare_total (x y : float64) :
  is_nan x = false -> is_nan y = false -> SFcompare x y <> None.
Proof.
  destruct x as [sx|sx| |sx mx ex], y as [sy|sy| |sy my ey]; cbn;
    intros Hx Hy; discriminate.
Qed.

Lemma leb_ltb_false (x y : float64) : leb x y = true -> ltb y x = false.
Proof.
  unfold leb, ltb, SFleb, SFltb. rewrite (SFcompare_swap x y).
  destruct (SFcompare x y) as [[]|]; cbn; congruence.
Qed.

Lemma ltb_leb_false (x y : float64) : ltb x y = true -> leb y x = false.
Proof.
  unfold leb, ltb, SFleb, SFltb. rewrite (SFcompare_swap x y).
  destruct (SFcompare x y) as [[]|]; cbn; congruence.
Qed.

Lemma leb_false_ltb (x y : float64) :
  is_nan x = false -> is_nan y = false -> leb x y = false -> ltb y x = true.
Proof.
  intros Hx Hy. generalize (SFcompare_total x y Hx Hy).
  unfold leb, ltb, SFleb, SFltb. rewrite (SFcompare_swap x y).
  destruct (SFcompare x y) as [[]|]; cbn; congruence.
Qed.

Lemma lt_half_not_gt_one (x : float64) :
  ltb x half = true -> ltb one x = false.
Proof.
  destruct x as [s|s| |s m e]; try destruct s;
    unfold ltb, SFltb, half, one, SFcompare; try congruence.
  destruct (Z.compare_spec e (-53)), (Z.compare_spec (-52) e);
    try lia; intros; try reflexivity; discriminate.
Qed.

Lemma ge_half_not_lt_zero (x : float64) :
  leb half x = true -> ltb x zero = false.
Proof.
  destruct x as [s|s| |s m e]; try destruct s;
    unfold leb, ltb, SFleb, SFltb, half, zero, SFcompare; congruence.
Qed.

(** Inside an interval is not beyond it, whatever the float. *)
Lemma within_not_beyond (lo hi x : float64) :
  within lo hi x -> ltb x lo = false /\ ltb hi x = false.
Proof.
  intros [Hlo Hhi]. split; now apply leb_ltb_false.
Qed.

(** For a number, beyond the interval is the same as not inside it. *)
Lemma beyond_iff_not_within (lo hi x : float64) :
  is_nan lo = false -> is_nan hi = false -> is_nan x = false ->
  beyond lo hi x <-> ~ within lo hi x.
Proof.
  intros Nlo Nhi Nx. unfold beyond, within. split.
  - intros [H|H] [Hlo Hhi].
    + apply ltb_leb_false in H. congruence.
    + apply ltb_leb_false in H. congruence.
  - intros H. destruct (leb lo x) eqn:Elo.
    + destruct (leb x hi) eqn:Ehi.
      * exfalso. now apply H.
      * right. now apply leb_false_ltb.
    + left. now apply leb_false_ltb.
Qed.

Lemma orb_true_beyond (a b : bool) :
  a || b = true <-> b = true \/ a = true.
Proof. destruct a, b; intuition congruence. Qed.

(* ================================================================== *)
(** ** Facts about the monad *)
(* ================================================================== *)

Section MonadFacts.

Context {Env : Type}.

Local Open Scope py_scope.

Lemma invoke_calls {A : Type} (c : call) (body : pymethod Env A)
  (w : World Env) :
  calls (snd (invoke c body w)) = calls w ++ [c].
Proof.
  unfold invoke. destruct (body (self w) (env w)) as [[r s] e].
  reflexivity.
Qed.

Lemma bind_ret_snd {A B : Type} (m : M Env A) (f : A -> B) (w : World Env) :
  snd ((v <- m ;; ret (f v)) w) = snd (m w).
Proof.
  unfold bind, ret. destruct (m w) as [[e|a] w']; reflexivity.
Qed.

Lemma bind_ret_returns {A B : Type} (m : M Env A) (f : A -> B)
  (w w' : World Env) (a : A) :
  m w = (inr a, w') -> (v <- m ;; ret (f v)) w = (inr (f a), w').
Proof.
  intros H. unfold bind, ret. now rewrite H.
Qed.

Lemma app_singleton_neq {A : Type} (l : list A) (a : A) : l ++ [a] <> l.
Proof.
  intros H. apply (f_equal (@List.length A)) in H.
  rewrite length_app in H. cbn [List.length] in H. lia.
Qed.

(** Once the [cdf] has been consulted the world is no longer the one the
    call started in. *)
Lemma after_cdf_world_differs (F : Family Env) (a : ndarray)
  (f : ndarray -> ndarray) (w : World Env) (r : exn + ndarray) :
  (v <- cdf F a false ;; ret (f v)) w <> (r, w).
Proof.
  intros H. apply (f_equal snd) in H. rewrite bind_ret_snd in H.
  apply (f_equal calls) in H. unfold cdf in H. rewrite invoke_calls in H.
  cbn [snd] in H. now apply app_singleton_neq in H.
Qed.

End MonadFacts.

(* ================================================================== *)
(** ** The fit-state guard of [random] *)
(* ================================================================== *)

(** C1: [random(n, seed)] on an instance whose [fit_stats] is [None]
    raises RuntimeError (the PreconditionError of the specification) and
    hands the world back as it was, so no call of [__random__] has been
    recorded; on an instance whose [fit_stats] is populated it is the
    call of the family's [__random__] with the same [n] and [seed]. *)
Theorem random_gated_by_fit_state {Env : Type} (F : Family Env)
  (n : Z) (seed : option Z) (w : World Env) :
  (fit_stats (self w) = None ->
     random F n seed w = (inl (RuntimeError unfitted_msg), w)) /\
  (fit_stats (self w) <> None ->
     random F n seed w
       = invoke (call_random n seed) (random_impl F n seed) w /\
     calls (snd (random F n seed w)) = calls w ++ [call_random n seed]).
Proof.
  unfold random, bind, attr. split.
  - intros H. rewrite H. reflexivity.
  - intros H. destruct (fit_stats (self w)) as [fs|] eqn:E.
    + split; [reflexivity | apply invoke_calls].
    + congruence.
Qed.

Lemma random_gated_by_fit_state_witness :
  random Sample.independence 3 None (Sample.world Sample.unfitted)
    = (inl (RuntimeError unfitted_msg), Sample.world Sample.unfitted) /\
  calls (snd (random Sample.independence 3 (Some 7)
                (Sample.world Sample.fitted)))
    = [call_random 3 (Some 7)].
Proof.
  split.
  - apply (proj1 (random_gated_by_fit_state Sample.independence 3 None
                    (Sample.world Sample.unfitted))).
    reflexivity.
  - apply (proj2 (random_gated_by_fit_state Sample.independence 3 (Some 7)
                    (Sample.world Sample.fitted))).
    discriminate.
Defined.

(* ================================================================== *)
(** ** The concentration functions *)
(* ================================================================== *)

(** C4: [concentration_function(x)] is [concentration_down(x)] for
    0 <= x < 0.5, is [concentration_up(x)] for 0.5 <= x <= 1 (so also at
    0.5 itself), and raises ValueError (the DomainError of the
    specification) for x < 0 and for x > 1. *)
Theorem concentration_function_dispatch {Env : Type} (F : Family Env)
  (x : float64) :
  (leb zero x = true /\ ltb x half = true ->
     concentration_function F x = concentration_down F x) /\
  (within half one x ->
     concentration_function F x = concentration_up F x) /\
  concentration_function F half = concentration_up F half /\
  (beyond zero one x ->
     forall w : World Env,
       concentration_function F x w = (inl (ValueError range_msg), w)).
Proof.
  unfold concentration_function. split_all.
  - intros [H0 H1].
    rewrite (leb_ltb_false _ _ H0), (lt_half_not_gt_one _ H1), H1.
    reflexivity.
  - intros [H0 H1].
    rewrite (ge_half_not_lt_zero _ H0), (leb_ltb_false _ _ H1),
      (leb_ltb_false _ _ H0).
    reflexivity.
  - reflexivity.
  - intros [H|H] w; rewrite H.
    + reflexivity.
    + rewrite orb_true_r. reflexivity.
Qed.

Lemma concentration_function_dispatch_witness :
  concentration_function Sample.independence f0_3
    = concentration_down Sample.independence f0_3 /\
  concentration_function Sample.independence f0_6
    = concentration_up Sample.independence f0_6 /\
  concentration_function Sample.independence two
      (Sample.world Sample.unfitted)
    = (inl (ValueError range_msg), Sample.world Sample.unfitted).
Proof.
  split_all.
  - apply (proj1 (concentration_function_dispatch Sample.independence f0_3)).
    split; reflexivity.
  - apply (proj1 (proj2
             (concentration_function_dispatch Sample.independence f0_6))).
    split; reflexivity.
  - apply (proj2 (proj2 (proj2
             (concentration_function_dispatch Sample.independence two)))).
    right. reflexivity.
Defined.

(** C5: [concentration_down(x)] stops at its range check, raising
    ValueError before the cdf is consulted, exactly when x < 0 or
    x > 0.5, and [concentration_up(x)] exactly when x < 0.5 or x > 1;
    for 0 <= x <= 0.5, resp. 0.5 <= x <= 1, the check lets the call
    through to the cdf. [concentration_down(0.6)] raises and
    [concentration_down(0.5)] does not. For every x that is a number,
    being beyond the interval is the same as not being in it. *)
Theorem concentration_range_checks {Env : Type} (F : Family Env)
  (x : float64) (w : World Env) :
  (concentration_down F x w = (inl (ValueError down_msg), w)
     <-> beyond zero half x) /\
  (concentration_up F x w = (inl (ValueError up_msg), w)
     <-> beyond half one x) /\
  (within zero half x ->
     concentration_down F x w
       = bind (cdf F (vector [x; x]) false)
              (fun v => ret (div_scalar v x)) w) /\
  (within half one x ->
     concentration_up F x w
       = bind (cdf F (vector [x; x]) false)
              (fun v => ret (div_scalar (scalar_add (one - two * x)%f64 v)
                                        (one - x)%f64)) w) /\
  concentration_down F f0_6 w = (inl (ValueError down_msg), w) /\
  concentration_down F half w <> (inl (ValueError down_msg), w) /\
  (is_nan x = false ->
     (beyond zero half x <-> ~ within zero half x) /\
     (beyond half one x <-> ~ within half one x)).
Proof.
  split_all.
  - unfold concentration_down, beyond.
    destruct ((half <? x)%f64 || (x <? zero)%f64) eqn:G.
    + split; [intros _ | reflexivity]. now apply orb_true_beyond.
    + split.
      * intros H. now apply after_cdf_world_differs in H.
      * intros H. apply orb_true_beyond in H. congruence.
  - unfold concentration_up, beyond.
    destruct ((x <? half)%f64 || (one <? x)%f64) eqn:G.
    + split; [intros _ | reflexivity]. now apply orb_true_iff.
    + split.
      * intros H. now apply after_cdf_world_differs in H.
      * intros H. apply orb_true_iff in H. congruence.
  - intros H. destruct (within_not_beyond _ _ _ H) as [H0 H1].
    unfold concentration_down. rewrite H0, H1. reflexivity.
  - intros H. destruct (within_not_beyond _ _ _ H) as [H0 H1].
    unfold concentration_up. rewrite H0, H1. reflexivity.
  - reflexivity.
  - apply after_cdf_world_differs.
  - intros N. split; now apply beyond_iff_not_within.
Qed.

Lemma concentration_range_checks_witness :
  concentration_down Sample.independence half (Sample.world Sample.unfitted)
    = bind (cdf Sample.independence (vector [half; half]) false)
           (fun v => ret (div_scalar v half))
           (Sample.world Sample.unfitted) /\
  concentration_up Sample.independence f0_3 (Sample.world Sample.unfitted)
    = (inl (ValueError up_msg), Sample.world Sample.unfitted) /\
  ~ within zero half f0_6.
Proof.
  split_all.
  - apply (proj1 (proj2 (proj2
             (concentration_range_checks Sample.independence half
                (Sample.world Sample.unfitted))))).
    split; reflexivity.
  - apply (proj1 (proj2
             (concentration_range_checks Sample.independence f0_3
                (Sample.world Sample.unfitted)))).
    left. reflexivity.
  - apply (proj2 (proj2 (proj2 (proj2 (proj2 (proj2
             (concentration_range_checks Sample.independence f0_6
                (Sample.world Sample.unfitted)))))))).
    + reflexivity.
    + right. reflexivity.
Defined.

(** A NaN argument compares false with every bound: it is neither within
    nor beyond any interval, and all three range checks let it pass. *)
Lemma nan_passes_range_checks {Env : Type} (F : Family Env) (w : World Env) :
  ~ within zero half nan /\ ~ beyond zero half nan /\
  concentration_down F nan w
    = bind (cdf F (vector [nan; nan]) false)
           (fun v => ret (div_scalar v nan)) w /\
  concentration_function F nan = concentration_up F nan.
Proof.
  split_all; try reflexivity.
  - intros [H _]. discriminate H.
  - intros [H|H]; discriminate H.
Qed.

Lemma div_by_zero_not_finite (v : float64) :
  is_finite (v / zero)%f64 = false.
Proof.
  destruct v as [s|s| |s m e]; reflexivity.
Qed.

Lemma one_minus_one : (one - one)%f64 = zero.
Proof. vm_compute. reflexivity. Qed.

(** C6: for 0 <= x <= 0.5 and a cdf that returns [a] at (x, x),
    [concentration_down(x)] returns [a / x]; for 0.5 <= x <= 1,
    [concentration_up(x)] returns [(1 - 2 x + a) / (1 - x)]; and where
    the cdf at (0.3, 0.3) is 0.3 * 0.3, [concentration_down(0.3)] is
    0.3. *)
Theorem concentration_formulas {Env : Type} (F : Family Env)
  (x : float64) (w w' : World Env) (a : ndarray) :
  (within zero half x ->
   cdf F (vector [x; x]) false w = (inr a, w') ->
     concentration_down F x w = (inr (div_scalar a x), w') /\
     flat (div_scalar a x) = map (fun v => v / x)%f64 (flat a)) /\
  (within half one x ->
   cdf F (vector [x; x]) false w = (inr a, w') ->
     concentration_up F x w
       = (inr (div_scalar (scalar_add (one - two * x)%f64 a)
                          (one - x)%f64), w') /\
     flat (div_scalar (scalar_add (one - two * x)%f64 a) (one - x)%f64)
       = map (fun v => (one - two * x + v) / (one - x))%f64 (flat a)) /\
  (cdf F (vector [f0_3; f0_3]) false w = (inr a, w') ->
   flat a = [(f0_3 * f0_3)%f64] ->
     exists r, concentration_down F f0_3 w = (inr r, w') /\
               flat r = [f0_3]).
Proof.
  split_all.
  - intros H Hc. destruct (within_not_beyond _ _ _ H) as [H0 H1]. split.
    + unfold concentration_down. rewrite H0, H1. cbn [orb].
      now apply (bind_ret_returns _ (fun v => div_scalar v x)).
    + reflexivity.
  - intros H Hc. destruct (within_not_beyond _ _ _ H) as [H0 H1]. split.
    + unfold concentration_up. rewrite H0, H1. cbn [orb].
      now apply (bind_ret_returns _
        (fun v => div_scalar (scalar_add (one - two * x)%f64 v)
                             (one - x)%f64)).
    + unfold div_scalar, scalar_add, map_elems. cbn [flat].
      rewrite map_map. reflexivity.
  - intros Hc Ha. exists (div_scalar a f0_3). split.
    + now apply (bind_ret_returns _ (fun v => div_scalar v f0_3)).
    + unfold div_scalar, map_elems. cbn [flat]. rewrite Ha.
      vm_compute. reflexivity.
Qed.

Lemma concentration_formulas_witness :
  exists r,
    concentration_down Sample.independence f0_3
      (Sample.world Sample.unfitted)
    = (inr r, snd (cdf Sample.independence (vector [f0_3; f0_3]) false
                     (Sample.world Sample.unfitted))) /\
    flat r = [f0_3].
Proof.
  apply (proj2 (proj2
    (concentration_formulas Sample.independence f0_3
       (Sample.world Sample.unfitted)
       (snd (cdf Sample.independence (vector [f0_3; f0_3]) false
               (Sample.world Sample.unfitted)))
       {| shape := []; flat := [(f0_3 * f0_3)%f64] |}))).
  - vm_compute. reflexivity.
  - reflexivity.
Defined.

(** C10: both range checks accept the endpoint at which the quotient has
    a zero divisor. [concentration_down(0)] goes on to divide the cdf at
    (0, 0) by 0 and [concentration_up(1)] to divide by 1 - 1 = 0;
    neither stops with the ValueError of its check, and when the cdf
    returns an array the call returns too, every element of its result
    being an infinity or NaN. *)
Theorem endpoints_divide_by_zero {Env : Type} (F : Family Env)
  (w w0 w1 : World Env) (a0 a1 : ndarray) :
  within zero half zero /\ within half one one /\
  concentration_down F zero w <> (inl (ValueError down_msg), w) /\
  concentration_up F one w <> (inl (ValueError up_msg), w) /\
  (cdf F (vector [zero; zero]) false w = (inr a0, w0) ->
     concentration_down F zero w = (inr (div_scalar a0 zero), w0) /\
     Forall (fun v => is_finite v = false) (flat (div_scalar a0 zero))) /\
  (cdf F (vector [one; one]) false w = (inr a1, w1) ->
     concentration_up F one w
       = (inr (div_scalar (scalar_add (one - two * one)%f64 a1) zero), w1) /\
     Forall (fun v => is_finite v = false)
       (flat (div_scalar (scalar_add (one - two * one)%f64 a1) zero))).
Proof.
  assert (Hnf : forall b : ndarray,
             Forall (fun v => is_finite v = false)
                    (flat (div_scalar b zero))).
  { intros b. unfold div_scalar, map_elems. cbn [flat]. apply Forall_map.
    apply Forall_forall. intros v _. apply div_by_zero_not_finite. }
  split_all.
  - split; reflexivity.
  - split; reflexivity.
  - apply after_cdf_world_differs.
  - apply after_cdf_world_differs.
  - intros Hc. split; [|apply Hnf].
    now apply (bind_ret_returns _ (fun v => div_scalar v zero)).
  - intros Hc. split; [|apply Hnf].
    unfold concentration_up.
    change ((one <? half)%f64 || (one <? one)%f64) with false.
    cbv iota. rewrite <- one_minus_one.
    now apply (bind_ret_returns _
      (fun v => div_scalar (scalar_add (one - two * one)%f64 v)
                           (one - one)%f64)).
Qed.

Lemma endpoints_divide_by_zero_witness :
  concentration_down Sample.independence zero (Sample.world Sample.unfitted)
    = (inr {| shape := []; flat := [nan] |},
       snd (cdf Sample.independence (vector [zero; zero]) false
              (Sample.world Sample.unfitted))) /\
  concentration_up Sample.independence one (Sample.world Sample.unfitted)
    = (inr {| shape := []; flat := [nan] |},
       snd (cdf Sample.independence (vector [one; one]) false
              (Sample.world Sample.unfitted))).
Proof.
  split.
  - apply (proj1 (proj1 (proj2 (proj2 (proj2 (proj2
      (endpoints_divide_by_zero Sample.independence
         (Sample.world Sample.unfitted)
         (snd (cdf Sample.independence (vector [zero; zero]) false
                 (Sample.world Sample.unfitted)))
         (snd (cdf Sample.independence (vector [one; one]) false
                 (Sample.world Sample.unfitted)))
         {| shape := []; flat := [zero] |}
         {| shape := []; flat := [one] |})))))
      ltac:(vm_compute; reflexivity))).
  - apply (proj1 (proj2 (proj2 (proj2 (proj2 (proj2
      (endpoints_divide_by_zero Sample.independence
         (Sample.world Sample.unfitted)
         (snd (cdf Sample.independence (vector [zero; zero]) false
                 (Sample.world Sample.unfitted)))
         (snd (cdf Sample.independence (vector [one; one]) false
                 (Sample.world Sample.unfitted)))
         {| shape := []; flat := [zero] |}
         {| shape := []; flat := [one] |})))))
      ltac:(vm_compute; reflexivity))).
Defined.

(* ================================================================== *)
(** ** [log_lik] *)
(* ================================================================== *)









(* ================================================================== *)
(** ** [fit] *)
(* ================================================================== *)

(** C7: [fit] first has the data transformed by [pseudo_obs] with the
    ties policy 'average'; it then hands the instance as it stands, the
    transformed data and [x0], [method], [est_var], [verbose] and
    [optim_options], all as given, to [CopulaEstimator]. These are the
    two calls it makes, in this order. The outcome and the instance
    after the call are those of the estimator; on success the result is
    the unit value, [fit] returning nothing. If the transform raises,
    [fit] raises the same and the estimator is not called. *)
Theorem fit_delegates_to_estimator {Env : Type} (K : Collaborators Env)
  (data : ndarray) (x0 : option ndarray) (method : string) (est_var : bool)
  (verbose : Z) (optim_options : option options) (w : World Env) :
  (forall d r c' e',
     pseudo_obs K data "average" = inr d ->
     CopulaEstimator K d x0 method est_var verbose optim_options
       (self w) (env w) = (r, c', e') ->
     fit K data x0 method est_var verbose optim_options w
       = (r, {| self := c'; env := e';
                calls := calls w ++
                  [call_pseudo_obs data "average";
                   call_estimator d x0 method est_var verbose
                     optim_options];
                allocated := allocated w |})) /\
  (forall e,
     pseudo_obs K data "average" = inl e ->
     fit K data x0 method est_var verbose optim_options w
       = (inl e, {| self := self w; env := env w;
                    calls := calls w ++ [call_pseudo_obs data "average"];
                    allocated := allocated w |})) /\
  (forall w',
     fit K data x0 method est_var verbose optim_options w = (inr tt, w') ->
     exists d,
       pseudo_obs K data "average" = inr d /\
       fst (fst (CopulaEstimator K d x0 method est_var verbose
                   optim_options (self w) (env w))) = inr tt).
Proof.
  unfold fit, bind, pobs, invoke. cbn [self env calls allocated].
  split_all.
  - intros d r c' e' Hd Hr. rewrite Hd, Hr, <- app_assoc. reflexivity.
  - intros e He. rewrite He. reflexivity.
  - intros w'. destruct (pseudo_obs K data "average") as [e|d].
    + discriminate.
    + destruct (CopulaEstimator K d x0 method est_var verbose optim_options
                  (self w) (env w)) as [[r c'] e'] eqn:E.
      intros H. exists d. split; [reflexivity|].
      rewrite E. cbn [fst]. congruence.
Qed.

Lemma fit_delegates_to_estimator_witness :
  exists d guess,
    fit Sample.collaborators Sample.scenario (Some guess) "mpl" false 1 None
      (Sample.world Sample.unfitted)
    = (inr tt,
       {| self := {| dim := 2; name := "independence"; params := [half];
                     fit_stats :=
                       Some {| est_params := [half]; std_errors := None;
                               log_likelihood := zero;
                               diagnostics := "converged" |} |};
          env := tt;
          calls := [call_pseudo_obs Sample.scenario "average";
                    call_estimator d (Some guess) "mpl" false 1 None];
          allocated := 0 |}) /\
    flat d = [Sample.quarter; Sample.three_quarters; half; half;
              Sample.three_quarters; Sample.quarter].
Proof.
  eexists. exists (vector [half]). split.
  - apply (proj1 (fit_delegates_to_estimator Sample.collaborators
             Sample.scenario (Some (vector [half])) "mpl" false 1 None
             (Sample.world Sample.unfitted))).
    + vm_compute. reflexivity.
    + reflexivity.
  - reflexivity.
Defined.

(** The estimator fails only by leaving the instance alone, and succeeds
    only by setting both [params] and [fit_stats]. *)
Lemma SpecEstimator_all_or_nothing {Env : Type}
  (minimize : Copula -> ndarray -> option ndarray -> string -> Z ->
              option options -> Env -> option Optimum * Env)
  (d : ndarray) (x0 : option ndarray) (method : string) (est_var : bool)
  (verbose : Z) (oo : option options) (c c' : Copula) (e e' : Env)
  (r : exn + unit) :
  SpecEstimator minimize d x0 method est_var verbose oo c e = (r, c', e') ->
  match r with
  | inl _ => c' = c
  | inr _ => exists fs, fit_stats c' = Some fs /\ params c' = est_params fs
  end.
Proof.
  unfold SpecEstimator.
  destruct (minimize c d x0 method verbose oo e) as [[o|] e1]; intros H;
    injection H as <- <- <-.
  - eexists. split; reflexivity.
  - reflexivity.
Qed.

(** C2: with the estimator as the specification describes it, a [fit]
    that raises leaves the instance as it was before the call, [params]
    and [fit_stats] included, and a [fit] that returns has set both: the
    new [params] are those recorded in the new [fit_stats]. *)
Theorem failed_fit_keeps_instance {Env : Type}
  (minimize : Copula -> ndarray -> option ndarray -> string -> Z ->
              option options -> Env -> option Optimum * Env)
  (po : ndarray -> string -> exn + ndarray)
  (data : ndarray) (x0 : option ndarray) (method : string) (est_var : bool)
  (verbose : Z) (optim_options : option options) (w w' : World Env) :
  (forall e,
     fit (with_SpecEstimator minimize po) data x0 method est_var
         verbose optim_options w = (inl e, w') ->
     self w' = self w /\
     params (self w') = params (self w) /\
     fit_stats (self w') = fit_stats (self w)) /\
  (fit (with_SpecEstimator minimize po) data x0 method est_var
       verbose optim_options w = (inr tt, w') ->
   exists fs,
     fit_stats (self w') = Some fs /\ params (self w') = est_params fs).
Proof.
  unfold fit, bind, pobs, invoke, with_SpecEstimator.
  cbn [self env calls allocated pseudo_obs CopulaEstimator].
  destruct (po data "average") as [e0|d].
  - split.
    + intros e H. injection H as _ <-. cbn [self]. auto.
    + discriminate.
  - destruct (SpecEstimator minimize d x0 method est_var verbose
                optim_options (self w) (env w)) as [[r c'] e'] eqn:E.
    apply SpecEstimator_all_or_nothing in E. split.
    + intros e H. injection H as -> <-. cbn [self]. subst c'. auto.
    + intros H. injection H as -> <-. cbn [self]. exact E.
Qed.

Lemma failed_fit_keeps_instance_witness :
  params (self (snd (fit Sample.collaborators Sample.scenario None "mpl"
                       false 1 None (Sample.world Sample.fitted))))
    = params Sample.fitted /\
  fit_stats (self (snd (fit Sample.collaborators Sample.scenario None "mpl"
                          false 1 None (Sample.world Sample.fitted))))
    = fit_stats Sample.fitted.
Proof.
  apply (proj2 (proj1
    (failed_fit_keeps_instance Sample.one_step_minimize
       Sample.pseudo_obs_average Sample.scenario None "mpl" false 1
       None (Sample.world Sample.fitted)
       (snd (fit Sample.collaborators Sample.scenario None "mpl" false 1
               None (Sample.world Sample.fitted))))
    EstimationError ltac:(vm_compute; reflexivity))).
Defined.

(* ================================================================== *)
(** ** The dependence measures *)
(* ================================================================== *)

Lemma inherited_stub {Env : Type} (c : call) (w : World Env) :
  invoke c (@not_implemented Env ndarray) w
    = (inl NotImplementedError,
       {| self := self w; env := env w; calls := calls w ++ [c];
          allocated := allocated w |}).
Proof. reflexivity. Qed.

(** C8: on a family that does not supply them, [tau], [rho], [itau],
    [irho], [dtau] and [drho] each raise NotImplementedError, the
    instance and the outside world staying as they were. *)
Theorem measures_not_implemented {Env : Type} (F : Family Env)
  (w : World Env) (t : ndarray) :
  let stub (m : M Env ndarray) :=
    fst (m w) = inl NotImplementedError /\
    self (snd (m w)) = self w /\ env (snd (m w)) = env w in
  (tau_impl F = None -> stub (tau F)) /\
  (rho_impl F = None -> stub (rho F)) /\
  (itau_impl F = None -> stub (itau F t)) /\
  (irho_impl F = None -> stub (irho F t)) /\
  (dtau_impl F = None -> stub (dtau F)) /\
  (drho_impl F = None -> stub (drho F)).
Proof.
  cbv zeta. unfold tau, rho, itau, irho, dtau, drho.
  split_all; intros H; rewrite H; cbn [resolve resolve1];
    rewrite inherited_stub; split_all; reflexivity.
Qed.

Lemma measures_not_implemented_witness :
  fst (tau Sample.independence (Sample.world Sample.fitted))
    = inl NotImplementedError /\
  fst (itau Sample.independence (vector [half]) (Sample.world Sample.fitted))
    = inl NotImplementedError /\
  fst (drho Sample.independence (Sample.world Sample.fitted))
    = inl NotImplementedError.
Proof.
  pose proof (measures_not_implemented Sample.independence
                (Sample.world Sample.fitted) (vector [half])) as H.
  cbv zeta in H.
  destruct H as (Htau & _ & Hitau & _ & _ & Hdrho).
  split_all.
  - exact (proj1 (Htau eq_refl)).
  - exact (proj1 (Hitau eq_refl)).
  - exact (proj1 (Hdrho eq_refl)).
Defined.

(* ================================================================== *)
(** ** Tail dependence *)
(* ================================================================== *)

(** The type name is what the check trips over: with the name of the
    module's own [TailDep], 'Lambda', the same fields are accepted. *)
Lemma namedtuple_check_Lambda :
  Py.namedtuple_check "Lambda" ["lower"; "upper"] = None /\
  Py.iskeyword "lambda" = true.
Proof. split; reflexivity. Qed.

(** C9, as the code has it: every access to [lambda_] raises ValueError.
    [namedtuple('lambda', ...)] rejects its type name, a Python keyword,
    before [__lambda__] is read, so no tuple of [lower] and [upper] is
    ever built: nothing is called, nothing is created, and the instance
    is untouched. *)
Theorem lambda_always_raises {Env : Type} (F : Family Env) (w : World Env) :
  lambda_ F w
    = (inl (ValueError
              "Type names and field names cannot be a keyword: 'lambda'"),
       w).
Proof. reflexivity. Qed.


(* ================================================================== *)
(** ** More on the range checks *)
(* ================================================================== *)

Lemma ltb_asym (x y : float64) : ltb x y = true -> ltb y x = false.
Proof.
  unfold ltb, SFltb. rewrite (SFcompare_swap x y).
  destruct (SFcompare x y) as [[]|]; cbn; congruence.
Qed.

Lemma gt_one_gt_half (x : float64) : ltb one x = true -> ltb half x = true.
Proof.
  destruct x as [s|s| |s m e]; try destruct s;
    unfold ltb, SFltb, half, one, SFcompare; try congruence.
  destruct (Z.compare_spec (-52) e), (Z.compare_spec (-53) e);
    try lia; intros; try reflexivity; discriminate.
Qed.

Lemma lt_zero_lt_half (x : float64) : ltb x zero = true -> ltb x half = true.
Proof.
  destruct x as [s|s| |s m e]; try destruct s;
    unfold ltb, SFltb, half, zero, SFcompare; congruence.
Qed.

(** The only number that is neither below nor above 0.5 is 0.5. *)
Lemma neither_side_of_half (x : float64) :
  is_nan x = false -> ltb x half = false -> ltb half x = false -> x = half.
Proof.
  destruct x as [s|s| |s m e]; try destruct s;
    unfold ltb, SFltb, half, SFcompare, is_nan; try congruence.
  intros _.
  destruct (Z.compare_spec e (-53)) as [He|He|He];
    destruct (Z.compare_spec (-53) e) as [He'|He'|He']; try lia;
    try discriminate.
  subst e. rewrite (compare_cont_swap m 4503599627370496).
  destruct (Pos.compare_cont Eq m 4503599627370496) eqn:Em;
    try discriminate.
  apply Pos.compare_eq in Em. now subst m.
Qed.

Section RangeChecks.

Context {Env : Type}.
Variable F : Family Env.

Local Open Scope py_scope.

(** Past its own check, [concentration_function] always gets to the cdf:
    the check of the half it picks cannot fail. *)
Lemma function_reaches_cdf (x : float64) (w : World Env) :
  (x <? zero)%f64 || (one <? x)%f64 = false ->
  exists f : ndarray -> ndarray,
    concentration_function F x w
      = (v <- cdf F (vector [x; x]) false ;; ret (f v)) w.
Proof.
  intros G. apply orb_false_iff in G as [G0 G1].
  unfold concentration_function. rewrite G0, G1. cbn [orb].
  destruct (x <? half)%f64 eqn:H.
  - exists (fun v => div_scalar v x).
    unfold concentration_down. rewrite (ltb_asym _ _ H), G0. reflexivity.
  - exists (fun v => div_scalar (scalar_add (one - two * x)%f64 v)
                                (one - x)%f64).
    unfold concentration_up. rewrite H, G1. reflexivity.
Qed.

Lemma down_stops_iff (x : float64) (w : World Env) :
  concentration_down F x w = (inl (ValueError down_msg), w)
  <-> (half <? x)%f64 || (x <? zero)%f64 = true.
Proof.
  unfold concentration_down.
  destruct ((half <? x)%f64 || (x <? zero)%f64).
  - split; reflexivity.
  - split; [|discriminate].
    intros H. now apply after_cdf_world_differs in H.
Qed.

Lemma up_stops_iff (x : float64) (w : World Env) :
  concentration_up F x w = (inl (ValueError up_msg), w)
  <-> (x <? half)%f64 || (one <? x)%f64 = true.
Proof.
  unfold concentration_up.
  destruct ((x <? half)%f64 || (one <? x)%f64).
  - split; reflexivity.
  - split; [|discriminate].
    intros H. now apply after_cdf_world_differs in H.
Qed.

Lemma function_stops_iff (x : float64) (w : World Env) :
  concentration_function F x w = (inl (ValueError range_msg), w)
  <-> (x <? zero)%f64 || (one <? x)%f64 = true.
Proof.
  destruct ((x <? zero)%f64 || (one <? x)%f64) eqn:G.
  - split; [reflexivity|]. intros _.
    unfold concentration_function. rewrite G. reflexivity.
  - split; [|discriminate].
    destruct (function_reaches_cdf x w G) as [f ->].
    intros H. now apply after_cdf_world_differs in H.
Qed.

(** [concentration_function(x)] either stops at its own range check,
    having called nothing, or calls the cdf exactly once, at [[x, x]]
    with [log] unset, and allocates nothing; the range checks of
    [concentration_down] and [concentration_up] never fire under it. *)
Theorem concentration_function_calls_cdf_once (x : float64)
  (w : World Env) :
  (beyond zero one x /\
   concentration_function F x w = (inl (ValueError range_msg), w)) \/
  (~ beyond zero one x /\
   calls (snd (concentration_function F x w))
     = calls w ++ [call_cdf (vector [x; x]) false] /\
   allocated (snd (concentration_function F x w)) = allocated w /\
   concentration_function F x w <> (inl (ValueError down_msg), w) /\
   concentration_function F x w <> (inl (ValueError up_msg), w)).
Proof.
  destruct ((x <? zero)%f64 || (one <? x)%f64) eqn:G.
  - left. split.
    + apply orb_true_iff in G. exact G.
    + now apply function_stops_iff.
  - right. destruct (function_reaches_cdf x w G) as [f Hf].
    rewrite Hf. split_all.
    + intros B. apply orb_true_iff in B. congruence.
    + rewrite bind_ret_snd. apply invoke_calls.
    + rewrite bind_ret_snd. unfold cdf, invoke.
      destruct (resolve2 (cdf_impl F) (vector [x; x]) false
                  (self w) (env w)) as [[r s] e].
      reflexivity.
    + apply after_cdf_world_differs.
    + apply after_cdf_world_differs.
Qed.

(** [concentration_function] accepts an argument exactly when
    [concentration_down] or [concentration_up] accepts it, and the one
    number that both of these accept is 0.5. *)
Theorem concentration_domains_meet_at_half (x : float64) (w : World Env) :
  (concentration_function F x w <> (inl (ValueError range_msg), w)
   <-> concentration_down F x w <> (inl (ValueError down_msg), w) \/
       concentration_up F x w <> (inl (ValueError up_msg), w)) /\
  (is_nan x = false ->
   (concentration_down F x w <> (inl (ValueError down_msg), w) /\
    concentration_up F x w <> (inl (ValueError up_msg), w)
    <-> x = half)).
Proof.
  rewrite function_stops_iff, down_stops_iff, up_stops_iff.
  destruct (x <? zero)%f64 eqn:E0, (one <? x)%f64 eqn:E1,
           (x <? half)%f64 eqn:Eh, (half <? x)%f64 eqn:Eh';
    try (rewrite (gt_one_gt_half _ E1) in Eh'; discriminate);
    try (rewrite (lt_zero_lt_half _ E0) in Eh; discriminate);
    try (rewrite (ltb_asym _ _ Eh) in Eh'; discriminate);
    cbn [orb]; (split; [intuition congruence|]); intros N.
  all: try (split; [intuition congruence|]; intros ->;
            vm_compute in Eh; vm_compute in Eh'; vm_compute in E0;
            vm_compute in E1; discriminate).
  split; [intros _|intuition congruence].
  now apply neither_side_of_half.
Qed.

End RangeChecks.

Lemma concentration_domains_meet_at_half_witness :
  concentration_down Sample.independence half (Sample.world Sample.unfitted)
    <> (inl (ValueError down_msg), Sample.world Sample.unfitted) /\
  concentration_up Sample.independence half (Sample.world Sample.unfitted)
    <> (inl (ValueError up_msg), Sample.world Sample.unfitted).
Proof.
  apply (proj2 (concentration_domains_meet_at_half Sample.independence half
                  (Sample.world Sample.unfitted))).
  - reflexivity.
  - reflexivity.
Defined.

(* ================================================================== *)
(** ** The two halves at 0.5 *)
(* ================================================================== *)

Lemma add_zero_l (v : float64) : v <> S754_zero true -> (zero + v)%f64 = v.
Proof.
  destruct v as [[]| | |]; intros H; try reflexivity. now elim H.
Qed.

Lemma upper_formula_at_half :
  (one - two * half)%f64 = zero /\ (one - half)%f64 = half.
Proof. split; vm_compute; reflexivity. Qed.

(** At x = 0.5, where both apply, [concentration_up] and
    [concentration_down] return the same array, provided no element of
    the cdf's result is the negative zero: the choice that
    [concentration_function] makes there does not show in the value. *)
Theorem halves_agree_at_half {Env : Type} (F : Family Env)
  (w w' : World Env) (a : ndarray) :
  cdf F (vector [half; half]) false w = (inr a, w') ->
  Forall (fun v => v <> S754_zero true) (flat a) ->
  concentration_up F half w = concentration_down F half w /\
  concentration_function F half w = concentration_down F half w.
Proof.
  intros Hc Ha.
  assert (Hup : concentration_up F half w = concentration_down F half w).
  { unfold concentration_up, concentration_down.
    change ((half <? half)%f64 || (one <? half)%f64) with false.
    change ((half <? half)%f64 || (half <? zero)%f64) with false.
    cbv iota.
    rewrite (bind_ret_returns _ (fun v => div_scalar v half) _ _ _ Hc).
    rewrite (bind_ret_returns _
      (fun v => div_scalar (scalar_add (one - two * half)%f64 v)
                           (one - half)%f64) _ _ _ Hc).
    destruct upper_formula_at_half as [-> ->].
    do 2 f_equal. unfold div_scalar, scalar_add, map_elems. cbn [flat shape].
    f_equal. rewrite map_map. apply map_ext_in. intros v Hv.
    rewrite add_zero_l; [reflexivity|].
    rewrite Forall_forall in Ha. now apply Ha. }
  split; [exact Hup|]. rewrite <- Hup. reflexivity.
Qed.

Lemma halves_agree_at_half_witness :
  concentration_up Sample.independence half (Sample.world Sample.unfitted)
    = concentration_down Sample.independence half
        (Sample.world Sample.unfitted).
Proof.
  apply (halves_agree_at_half Sample.independence
           (Sample.world Sample.unfitted)
           (snd (cdf Sample.independence (vector [half; half]) false
                   (Sample.world Sample.unfitted)))
           {| shape := []; flat := [Sample.quarter] |}).
  - vm_compute. reflexivity.
  - repeat constructor. discriminate.
Defined.

(* ================================================================== *)
(** ** Families without [cdf] or [pdf], and families that only read *)
(* ================================================================== *)

(** On a family that inherits [cdf] from [BaseCopula],
    [concentration_function] never returns: it raises the ValueError of
    its range check for an argument below 0 or above 1, and
    NotImplementedError for every other, NaN included. On a family that
    inherits [pdf], [log_lik] raises NotImplementedError. The instance
    is left as it was. *)
Theorem derived_need_cdf_and_pdf {Env : Type} (F : Family Env)
  (x : float64) (data : ndarray) (w : World Env) :
  (cdf_impl F = None ->
     (beyond zero one x ->
        fst (concentration_function F x w) = inl (ValueError range_msg)) /\
     (~ beyond zero one x ->
        fst (concentration_function F x w) = inl NotImplementedError) /\
     self (snd (concentration_function F x w)) = self w) /\
  (pdf_impl F = None ->
     fst (log_lik F data w) = inl NotImplementedError /\
     self (snd (log_lik F data w)) = self w).
Proof.
  split.
  - intros HF.
    destruct ((x <? zero)%f64 || (one <? x)%f64) eqn:G.
    + rewrite (proj2 (function_stops_iff F x w) G). split_all.
      * reflexivity.
      * intros B. elim B. apply orb_true_iff in G. exact G.
      * reflexivity.
    + destruct (function_reaches_cdf F x w G) as [f ->].
      unfold bind, cdf. rewrite HF. cbn [resolve2].
      rewrite inherited_stub. split_all.
      * intros B. apply orb_true_iff in B. congruence.
      * reflexivity.
      * reflexivity.
  - intros HF. unfold log_lik, bind, pdf. rewrite HF. cbn [resolve2].
    rewrite inherited_stub. split; reflexivity.
Qed.

Lemma derived_need_cdf_and_pdf_witness :
  fst (concentration_function Sample.bare f0_3
         (Sample.world Sample.unfitted)) = inl NotImplementedError /\
  fst (log_lik Sample.bare Sample.scenario
         (Sample.world Sample.unfitted)) = inl NotImplementedError.
Proof.
  pose proof (derived_need_cdf_and_pdf Sample.bare
                f0_3 Sample.scenario (Sample.world Sample.unfitted))
    as [Hc Hp].
  split.
  - apply (proj1 (proj2 (Hc eq_refl))). intros [H|H]; discriminate H.
  - apply (proj1 (Hp eq_refl)).
Defined.

Lemma invoke_read_only {Env A : Type} (c : call) (body : pymethod Env A)
  (w : World Env) :
  snd (fst (body (self w) (env w))) = self w ->
  snd (body (self w) (env w)) = env w ->
  self (snd (invoke c body w)) = self w /\
  env (snd (invoke c body w)) = env w.
Proof.
  unfold invoke. destruct (body (self w) (env w)) as [[r s] e].
  cbn [fst snd self env]. intros -> ->. split; reflexivity.
Qed.

(** The derived operations write nothing of their own: when the
    family's [cdf] leaves the instance and the outside world as it found
    them, so does [concentration_function], whatever it returns or
    raises, and when [pdf] does, so does [log_lik]. *)
Theorem derived_operations_only_read {Env : Type} (F : Family Env)
  (x : float64) (data : ndarray) (w : World Env) :
  ((forall p u l c e,
      cdf_impl F = Some p ->
      snd (fst (p u l c e)) = c /\ snd (p u l c e) = e) ->
   self (snd (concentration_function F x w)) = self w /\
   env (snd (concentration_function F x w)) = env w) /\
  ((forall p u l c e,
      pdf_impl F = Some p ->
      snd (fst (p u l c e)) = c /\ snd (p u l c e) = e) ->
   self (snd (log_lik F data w)) = self w /\
   env (snd (log_lik F data w)) = env w).
Proof.
  split; intros H.
  - destruct ((x <? zero)%f64 || (one <? x)%f64) eqn:G.
    + rewrite (proj2 (function_stops_iff F x w) G). split_all; reflexivity.
    + destruct (function_reaches_cdf F x w G) as [f ->].
      rewrite bind_ret_snd. unfold cdf. apply invoke_read_only.
      * destruct (cdf_impl F) as [p|] eqn:E; [|reflexivity].
        apply (H p _ _ _ _ eq_refl).
      * destruct (cdf_impl F) as [p|] eqn:E; [|reflexivity].
        apply (H p _ _ _ _ eq_refl).
  - unfold log_lik. rewrite bind_ret_snd. unfold pdf.
    apply invoke_read_only.
    + destruct (pdf_impl F) as [p|] eqn:E; [|reflexivity].
      apply (H p _ _ _ _ eq_refl).
    + destruct (pdf_impl F) as [p|] eqn:E; [|reflexivity].
      apply (H p _ _ _ _ eq_refl).
Qed.

Lemma derived_operations_only_read_witness :
  self (snd (concentration_function Sample.independence f0_3
               (Sample.world Sample.fitted))) = Sample.fitted /\
  env (snd (concentration_function Sample.independence f0_3
              (Sample.world Sample.fitted))) = tt.
Proof.
  apply (proj1 (derived_operations_only_read Sample.independence
                  f0_3 Sample.scenario
                  (Sample.world Sample.fitted))).
  intros p u l c e H. injection H as <-. destruct l; split; reflexivity.
Defined.

(* ================================================================== *)
(** ** A NaN argument *)
(* ================================================================== *)

Lemma div_nan_r (v : float64) : (v / nan)%f64 = nan.
Proof. destruct v; reflexivity. Qed.

Lemma one_minus_nan : (one - nan)%f64 = nan.
Proof. reflexivity. Qed.

(** None of the three range checks rejects NaN. When the cdf returns an
    array at [[NaN, NaN]], [concentration_down], [concentration_up] and
    [concentration_function] all return as well, and their result has
    the shape of that array with NaN in every place. *)
Theorem nan_argument_gives_nan {Env : Type} (F : Family Env)
  (w w' : World Env) (a : ndarray) :
  cdf F (vector [nan; nan]) false w = (inr a, w') ->
  concentration_down F nan w = (inr (map_elems (fun _ => nan) a), w') /\
  concentration_up F nan w = (inr (map_elems (fun _ => nan) a), w') /\
  concentration_function F nan w = (inr (map_elems (fun _ => nan) a), w').
Proof.
  intros Hc.
  assert (Hup : concentration_up F nan w
                = (inr (map_elems (fun _ => nan) a), w')).
  { unfold concentration_up.
    change ((nan <? half)%f64 || (one <? nan)%f64) with false. cbv iota.
    rewrite (bind_ret_returns _
      (fun v => div_scalar (scalar_add (one - two * nan)%f64 v)
                           (one - nan)%f64) _ _ _ Hc).
    rewrite one_minus_nan. do 2 f_equal.
    unfold div_scalar, scalar_add, map_elems. cbn [flat shape]. f_equal.
    rewrite map_map. apply map_ext. intros v. apply div_nan_r. }
  split_all.
  - unfold concentration_down.
    change ((half <? nan)%f64 || (nan <? zero)%f64) with false. cbv iota.
    rewrite (bind_ret_returns _ (fun v => div_scalar v nan) _ _ _ Hc).
    do 2 f_equal. unfold div_scalar, map_elems. f_equal.
    apply map_ext. intros v. apply div_nan_r.
  - exact Hup.
  - rewrite <- Hup. reflexivity.
Qed.

Lemma nan_argument_gives_nan_witness :
  concentration_function Sample.independence nan
    (Sample.world Sample.unfitted)
  = (inr {| shape := []; flat := [nan] |},
     snd (cdf Sample.independence (vector [nan; nan]) false
            (Sample.world Sample.unfitted))).
Proof.
  apply (proj2 (proj2
    (nan_argument_gives_nan Sample.independence
       (Sample.world Sample.unfitted)
       (snd (cdf Sample.independence (vector [nan; nan]) false
               (Sample.world Sample.unfitted)))
       {| shape := []; flat := [nan] |} eq_refl))).
Defined.
